(** * Cursors Everywhere: the content script (src/content.js)

    A shallow embedding of the content script that samples the local mouse,
    publishes the samples over Ably presence updates and replays the samples
    of other participants.  Every event handler of the script becomes a
    function on an explicit state record [St]; the module-level variables of
    the script ([positions], [baseTime], [cursors],
    [cursorCommunicationEnabled]) are its fields, the pending [setTimeout]
    callbacks are a list of timers and the calls made on the Ably channel
    are recorded, in order, in [sent].  The browser document is an
    environment record ([Document]) giving [elementFromPoint] and
    [querySelectorAll]; an exception thrown by a handler is an [Outcome]
    [Threw]. *)

From Stdlib Require Import ZArith Ascii.
From Stdlib Require String.
From stdpp Require Import base gmap strings list.

Open Scope Z_scope.

(** ** Data *)

(** One entry of the [positions] array pushed by the mousemove listener:
    [{x, y, xElement, yElement, time, element}]. *)
Record Position := {
  x : Z;
  y : Z;
  xElement : Z;
  yElement : Z;
  time : Z;
  element : string
}.

(** A DOM element, as far as the script looks at it: its [className], its
    [id], the [left]/[top] of [getBoundingClientRect()], and whether
    [typeof element.getBoundingClientRect === 'function']. *)
Record Elem := {
  className : string;
  el_id : string;
  rect_left : Z;
  rect_top : Z;
  has_gbcr : bool
}.

(** The parts of [document] the script calls.  [elementFromPoint] returns
    [None] for [null] (a point outside the viewport); [querySelectorAll]
    returns [None] when the browser throws a [SyntaxError] because the
    string is not a valid selector. *)
Record Document := {
  elementFromPoint : Z -> Z -> option Elem;
  querySelectorAll : string -> option (list Elem)
}.

Record MouseEvent := {
  clientX : Z;
  clientY : Z;
  pageX : Z;
  pageY : Z
}.

(** The [data] of a presence message: [{positions, color}] for an update,
    [{color}] for an enter (no [positions]). *)
Record PresenceData := {
  data_positions : option (list Position);
  data_color : string
}.

(** An Ably presence message: [clientId], [data] and the message
    [timestamp] set by the transport. *)
Record PresenceMsg := {
  clientId : string;
  data : PresenceData;
  timestamp : Z
}.

(** The cursor [div] created for a remote participant: its background
    colour, its title, and [style.left]/[style.top] ([None] while unset). *)
Record CursorDiv := {
  backgroundColor : string;
  title : string;
  style_left : option Z;
  style_top : option Z
}.

(** Calls made on [channel.presence]. *)
Inductive Call :=
| PresenceUpdate (ps : list Position) (c : string)
| PresenceEnter (c : string)
| PresenceLeave
| PresenceGet.

(** The two kinds of [setTimeout] callbacks: the replay of an update
    (content.js lines 94-115) and the replay of a presence snapshot
    (lines 175-179). *)
Inductive Callback :=
| ReplayUpdate (cid : string) (p : Position)
| ReplaySnapshot (cid : string) (p : Position).

(** A pending timer: the local time it is due at and its callback. *)
Record Timer := {
  due : Z;
  callback : Callback
}.

Record St := {
  cursorCommunicationEnabled : bool;
  positions : list Position;
  baseTime : option Z;
  cursors : gmap string CursorDiv;
  timers : list Timer;
  sent : list Call;
  color : string
}.

Inductive JsError := TypeError | SyntaxError.

(** The result of running a handler: the new state, or the exception it
    threw together with the state at the throw. *)
Inductive Outcome :=
| Ok (s : St)
| Threw (err : JsError) (s : St).

Definition outcome_state (o : Outcome) : St :=
  match o with Ok s => s | Threw _ s => s end.

(** ** State updates (the assignments of the script) *)

Definition set_positions (ps : list Position) (b : option Z) (s : St) : St :=
  {| cursorCommunicationEnabled := cursorCommunicationEnabled s;
     positions := ps; baseTime := b; cursors := cursors s;
     timers := timers s; sent := sent s; color := color s |}.

Definition set_cursors (cs : gmap string CursorDiv) (s : St) : St :=
  {| cursorCommunicationEnabled := cursorCommunicationEnabled s;
     positions := positions s; baseTime := baseTime s; cursors := cs;
     timers := timers s; sent := sent s; color := color s |}.

Definition set_timers (ts : list Timer) (s : St) : St :=
  {| cursorCommunicationEnabled := cursorCommunicationEnabled s;
     positions := positions s; baseTime := baseTime s; cursors := cursors s;
     timers := ts; sent := sent s; color := color s |}.

Definition set_enabled (b : bool) (s : St) : St :=
  {| cursorCommunicationEnabled := b;
     positions := positions s; baseTime := baseTime s; cursors := cursors s;
     timers := timers s; sent := sent s; color := color s |}.

Definition emit (c : Call) (s : St) : St :=
  {| cursorCommunicationEnabled := cursorCommunicationEnabled s;
     positions := positions s; baseTime := baseTime s; cursors := cursors s;
     timers := timers s; sent := sent s ++ [c]; color := color s |}.

(** The state when the script has loaded: disabled, nothing buffered. *)
Definition init (c : string) : St :=
  {| cursorCommunicationEnabled := false; positions := []; baseTime := None;
     cursors := ∅; timers := []; sent := []; color := c |}.

(** ** Sampling (content.js lines 24-49) *)

(** [s.replaceAll(c, r)] for a one-character pattern [c]. *)
Fixpoint replaceAll (c : ascii) (r : string) (s : string) : string :=
  match s with
  | String.EmptyString => String.EmptyString
  | String.String a s' =>
      if Ascii.eqb a c then String.append r (replaceAll c r s')
      else String.String a (replaceAll c r s')
  end.

(** The selector [elementClassAndID] built from the hovered element
    (lines 28-31): [.className] with spaces turned into dots and colons
    escaped, then [ #id] when the element has an id. *)
Definition elementClassAndID (el : Elem) : string :=
  let s0 := if String.eqb (className el) String.EmptyString then String.EmptyString
            else String.append "." (className el) in
  let s1 := replaceAll ":" "\:" (replaceAll " " "." s0) in
  if String.eqb (el_id el) String.EmptyString then s1
  else String.append s1 (String.append " #" (el_id el)).

(** [!baseTime]: [undefined], [null] and [0] are falsy. *)
Definition falsy (b : option Z) : bool :=
  match b with None => true | Some t => t =? 0 end.

(** The base time after [if (!baseTime) baseTime = now;]. *)
Definition new_baseTime (now : Z) (b : option Z) : Z :=
  match b with
  | Some t => if falsy b then now else t
  | None => now
  end.

(** The object the listener pushes, or [None] when computing it throws a
    [TypeError] ([element.className] on [null], or a missing
    [getBoundingClientRect]). *)
Definition capture_sample (doc : Document) (now : Z) (e : MouseEvent) (s : St)
  : option Position :=
  match elementFromPoint doc (clientX e) (clientY e) with
  | None => None
  | Some el =>
      if has_gbcr el then
        Some {| x := pageX e; y := pageY e;
                xElement := pageX e - rect_left el;
                yElement := pageY e - rect_top el;
                time := now - new_baseTime now (baseTime s);
                element := elementClassAndID el |}
      else None
  end.

(** The mousemove listener, [now] being [performance.now()]. *)
Definition on_mousemove (doc : Document) (now : Z) (e : MouseEvent) (s : St)
  : Outcome :=
  if cursorCommunicationEnabled s then
    match capture_sample doc now e s with
    | None => Threw TypeError s
    | Some p =>
        Ok (set_positions (positions s ++ [p])
              (Some (new_baseTime now (baseTime s))) s)
    end
  else Ok s.

(** ** Flushing (content.js lines 53-59): the [setInterval] callback run
    every 100 ms. *)
Definition on_interval (s : St) : St :=
  if cursorCommunicationEnabled s && (0 <? length (positions s))%nat then
    set_positions [] None (emit (PresenceUpdate (positions s) (color s)) s)
  else s.

(** ** Remote cursors *)

(** The cursor div created for a participant not yet in [cursors]
    (lines 71-88 and 151-168); it has no position yet. *)
Definition new_cursor (cid : string) (c : string) : CursorDiv :=
  {| backgroundColor := c; title := cid; style_left := None; style_top := None |}.

(** [if (!cursors[cid]) { ... cursors[cid] = cursor; }] *)
Definition ensure_cursor (cid : string) (c : string) (s : St) : St :=
  match cursors s !! cid with
  | Some _ => s
  | None => set_cursors (<[cid := new_cursor cid c]> (cursors s)) s
  end.

(** [positions.forEach(p => setTimeout(k(p), p.time))] at local time [now]. *)
Definition schedule (k : Position -> Callback) (now : Z) (ps : list Position)
  (s : St) : St :=
  set_timers (timers s ++ map (fun p => {| due := now + time p; callback := k p |}) ps) s.

(** The presence ['update'] subscriber (lines 65-118), run at local time
    [now]. *)
Definition on_update (now : Z) (m : PresenceMsg) (s : St) : St :=
  if cursorCommunicationEnabled s then
    let s1 := ensure_cursor (clientId m) (data_color (data m)) s in
    match data_positions (data m) with
    | None => s1
    | Some ps => schedule (ReplayUpdate (clientId m)) now ps s1
    end
  else s.

(** The presence ['leave'] subscriber (lines 122-128). *)
Definition on_leave (cid : string) (s : St) : St :=
  match cursors s !! cid with
  | Some _ => set_cursors (delete cid (cursors s)) s
  | None => s
  end.

(** [clearCursors()] (lines 131-136). *)
Definition clearCursors (s : St) : St := set_cursors ∅ s.

(** The loop of the [presence.get] callback of [fetchPresenceSet]
    (lines 146-181).  [if (!data.positions) return;] leaves the whole
    callback, not only the current iteration. *)
Fixpoint presence_loop (now : Z) (ms : list PresenceMsg) (s : St) : St :=
  match ms with
  | [] => s
  | m :: rest =>
      let s1 := ensure_cursor (clientId m) (data_color (data m)) s in
      match data_positions (data m) with
      | None => s1
      | Some ps => presence_loop now rest (schedule (ReplaySnapshot (clientId m)) now ps s1)
      end
  end.

(** The [presence.get] callback: [None] is the [err] branch. *)
Definition on_presence_get (now : Z) (r : option (list PresenceMsg)) (s : St) : St :=
  match r with
  | None => s
  | Some set => presence_loop now set s
  end.

(** The [chrome.runtime.onMessage] listener for ['setCursorCommunication']
    (lines 196-208): it flips the flag, then either fetches the presence set
    and enters, or clears the cursors and leaves. *)
Definition on_toggle (s : St) : St :=
  let s1 := set_enabled (negb (cursorCommunicationEnabled s)) s in
  if cursorCommunicationEnabled s1 then
    emit (PresenceEnter (color s1)) (emit PresenceGet s1)
  else emit PresenceLeave (clearCursors s1).

(** ** Timers *)

(** [cursors[cid].style.left = l + 'px'; cursors[cid].style.top = t + 'px';] *)
Definition set_position (cid : string) (c : CursorDiv) (l t : Z) (s : St) : St :=
  set_cursors (<[cid := {| backgroundColor := backgroundColor c; title := title c;
                           style_left := Some l; style_top := Some t |}]> (cursors s)) s.

(** The replay callback of an update (lines 94-115). *)
Definition replay_update (doc : Document) (cid : string) (p : Position) (s : St)
  : Outcome :=
  match cursors s !! cid with
  | None => Ok s
  | Some c =>
      if String.eqb (element p) String.EmptyString then
        (* no selector: absolute coordinates *)
        Ok (set_position cid c (x p) (y p) s)
      else
        match querySelectorAll doc (element p) with
        | None => Threw SyntaxError s
        | Some [el] =>
            (* elements.length == 1 *)
            if has_gbcr el then
              Ok (set_position cid c (rect_left el + xElement p) (rect_top el + yElement p) s)
            else Ok s
        | Some _ => Ok (set_position cid c (x p) (y p) s)
        end
  end.

(** The replay callback of a presence snapshot (lines 175-179). *)
Definition replay_snapshot (cid : string) (p : Position) (s : St) : Outcome :=
  match cursors s !! cid with
  | None => Ok s
  | Some c => Ok (set_position cid c (x p) (y p) s)
  end.

Definition run_callback (doc : Document) (cb : Callback) (s : St) : Outcome :=
  match cb with
  | ReplayUpdate cid p => replay_update doc cid p s
  | ReplaySnapshot cid p => replay_snapshot cid p s
  end.

(** The earliest due time among the pending timers. *)
Fixpoint min_due (ts : list Timer) : option Z :=
  match ts with
  | [] => None
  | t :: r =>
      match min_due r with
      | None => Some (due t)
      | Some m => Some (Z.min (due t) m)
      end
  end.

(** The first timer (in scheduling order) due at [d], and the others. *)
Fixpoint take_due (d : Z) (ts : list Timer) : option (Timer * list Timer) :=
  match ts with
  | [] => None
  | t :: r =>
      if due t =? d then Some (t, r)
      else match take_due d r with
           | None => None
           | Some (t', r') => Some (t', t :: r')
           end
  end.

(** The event loop runs the earliest pending timer, ties broken by the
    order of the [setTimeout] calls; the result is the local time at which
    it runs and the outcome of its callback. *)
Definition fire_next (doc : Document) (s : St) : option (Z * Outcome) :=
  match min_due (timers s) with
  | None => None
  | Some d =>
      match take_due d (timers s) with
      | None => None
      | Some (t, rest) => Some (d, run_callback doc (callback t) (set_timers rest s))
      end
  end.

(** ** The event loop *)

Inductive Event :=
| MouseMove (doc : Document) (now : Z) (e : MouseEvent)
| IntervalTick
| UpdateMsg (now : Z) (m : PresenceMsg)
| LeaveMsg (cid : string)
| ToggleMsg
| PresenceGetResult (now : Z) (r : option (list PresenceMsg))
| TimerFires (doc : Document).

(** One task of the event loop.  An exception ends the task; the loop goes
    on with the state as it was at the throw. *)
Definition step (ev : Event) (s : St) : St :=
  match ev with
  | MouseMove doc now e => outcome_state (on_mousemove doc now e s)
  | IntervalTick => on_interval s
  | UpdateMsg now m => on_update now m s
  | LeaveMsg cid => on_leave cid s
  | ToggleMsg => on_toggle s
  | PresenceGetResult now r => on_presence_get now r s
  | TimerFires doc =>
      match fire_next doc s with
      | None => s
      | Some (_, o) => outcome_state o
      end
  end.

Fixpoint run (s : St) (evs : list Event) : St :=
  match evs with
  | [] => s
  | ev :: rest => run (step ev s) rest
  end.

(** The sample a task captures: the object the mousemove listener builds
    while sharing is enabled. *)
Definition captured_by (ev : Event) (s : St) : list Position :=
  match ev with
  | MouseMove doc now e =>
      if cursorCommunicationEnabled s then
        match capture_sample doc now e s with Some p => [p] | None => [] end
      else []
  | _ => []
  end.

Fixpoint captured (s : St) (evs : list Event) : list Position :=
  match evs with
  | [] => []
  | ev :: rest => captured_by ev s ++ captured (step ev s) rest
  end.

(** The samples published so far, batch after batch. *)
Fixpoint published (cs : list Call) : list Position :=
  match cs with
  | [] => []
  | PresenceUpdate ps _ :: rest => ps ++ published rest
  | _ :: rest => published rest
  end.

Definition batches (cs : list Call) : list (list Position) :=
  omap (fun c => match c with PresenceUpdate ps _ => Some ps | _ => None end) cs.

(** [style.left]/[style.top] of the cursor of [cid], if it has one. *)
Definition cursor_at (cid : string) (s : St) : option (option Z * option Z) :=
  (fun c => (style_left c, style_top c)) <$> cursors s !! cid.

(** ** Concrete inputs *)

(** An element with neither class nor id (its selector is empty, the
    [None] anchor), at the origin of the page. *)
Definition plain_elem : Elem :=
  {| className := String.EmptyString; el_id := String.EmptyString;
     rect_left := 0; rect_top := 0; has_gbcr := true |}.

(** A document whose every point hits [plain_elem] and whose selectors
    match nothing. *)
Definition plain_doc : Document :=
  {| elementFromPoint := fun _ _ => Some plain_elem;
     querySelectorAll := fun _ => Some [] |}.

Definition move_at (px py : Z) : MouseEvent :=
  {| clientX := px; clientY := py; pageX := px; pageY := py |}.

(** Participant A enables sharing, moves at local times 1000 and 1050, and
    the flush timer fires. *)
Definition sender_events : list Event :=
  [ToggleMsg; MouseMove plain_doc 1000 (move_at 10 10);
   MouseMove plain_doc 1050 (move_at 20 15); IntervalTick].

Definition sample0 : Position :=
  {| x := 10; y := 10; xElement := 10; yElement := 10; time := 0;
     element := String.EmptyString |}.

Definition sample50 : Position :=
  {| x := 20; y := 15; xElement := 20; yElement := 15; time := 50;
     element := String.EmptyString |}.

Definition sender_after : St := run (init "#FF0000") sender_events.

(** The update message B receives from A, carrying A's published batch. *)
Definition batch_msg (cid : string) (ps : list Position) (ts : Z) : PresenceMsg :=
  {| clientId := cid; data := {| data_positions := Some ps; data_color := "#FF0000" |};
     timestamp := ts |}.

(** B, with sharing enabled, receives A's batch at local time 2000. *)
Definition receiver_after : St :=
  on_update 2000 (batch_msg "A" (published (sent sender_after)) 1000)
    (on_toggle (init "#00FF00")).

(** An element whose class attribute has a trailing space, [class="a "]:
    its selector is [".a."]. *)
Definition spaced_elem : Elem :=
  {| className := "a "; el_id := String.EmptyString;
     rect_left := 5; rect_top := 5; has_gbcr := true |}.

(** A sample whose selector is [".a."], as A's listener records it over
    [spaced_elem]. *)
Definition spaced_sample : Position :=
  {| x := 30; y := 40; xElement := 25; yElement := 35; time := 0;
     element := ".a." |}.

(** A document whose [querySelectorAll] throws on [".a."], as browsers do
    for a compound selector ending in a dot, and matches nothing
    otherwise. *)
Definition strict_doc : Document :=
  {| elementFromPoint := fun _ _ => Some plain_elem;
     querySelectorAll := fun sel =>
       if String.eqb sel ".a." then None else Some [] |}.

(** B, sharing, receives a batch from A holding [spaced_sample]. *)
Definition receiver_spaced : St :=
  on_update 2000 (batch_msg "A" [spaced_sample] 1000) (on_toggle (init "#00FF00")).

(** A document in which [.item] matches two elements, [#only] one. *)
Definition item_a : Elem :=
  {| className := "item"; el_id := String.EmptyString;
     rect_left := 100; rect_top := 200; has_gbcr := true |}.

Definition item_b : Elem :=
  {| className := "item"; el_id := String.EmptyString;
     rect_left := 300; rect_top := 400; has_gbcr := true |}.

Definition items_doc : Document :=
  {| elementFromPoint := fun _ _ => Some plain_elem;
     querySelectorAll := fun sel =>
       if String.eqb sel ".item" then Some [item_a; item_b]
       else if String.eqb sel " #only" then Some [item_a]
       else Some [] |}.

Definition item_sample : Position :=
  {| x := 30; y := 40; xElement := 7; yElement := 8; time := 0;
     element := ".item" |}.

(** A document where a point left of or above the viewport hits nothing
    ([elementFromPoint] returns [null]). *)
Definition bounded_doc : Document :=
  {| elementFromPoint := fun cx cy =>
       if (cx <? 0) || (cy <? 0) then None else Some plain_elem;
     querySelectorAll := fun _ => Some [] |}.

Definition outside_move : MouseEvent :=
  {| clientX := -5; clientY := 10; pageX := -5; pageY := 10 |}.

(** The presence entry of a participant that entered with [{color}] and
    never sent a batch. *)
Definition enter_msg (cid : string) : PresenceMsg :=
  {| clientId := cid; data := {| data_positions := None; data_color := "#0000FF" |};
     timestamp := 0 |}.

(** A sample captured before a disable, then a disable, a re-enable and a
    flush. *)
Definition toggle_events : list Event :=
  [ToggleMsg; MouseMove plain_doc 1000 (move_at 10 10); ToggleMsg; ToggleMsg;
   IntervalTick].

Definition far_sample : Position :=
  {| x := 50; y := 50; xElement := 50; yElement := 50; time := 0;
     element := String.EmptyString |}.

(** B receives A's newer batch (timestamp 200) at 2000, then A's older
    batch (timestamp 100) at 2010. *)
Definition receiver_reordered : St :=
  on_update 2010 (batch_msg "A" [sample0] 100)
    (on_update 2000 (batch_msg "A" [far_sample] 200) (on_toggle (init "#00FF00"))).

(** ** getRandomColor (content.js lines 186-193) *)

Definition letters : string := "0123456789ABCDEF".

(** [letters[k]] appended to a string: the character at [k], or the text
    ["undefined"] past the end. *)
Definition letter_at (k : nat) : string :=
  match String.get k letters with
  | Some a => String.String a String.EmptyString
  | None => "undefined"
  end.

(** The loop [for (var i = 0; i < 6; i++) color += letters[r i];], where
    [r i] is [Math.floor(Math.random() * 16)] at iteration [i]. *)
Fixpoint color_loop (r : nat -> nat) (i : nat) (fuel : nat) (acc : string) : string :=
  match fuel with
  | O => acc
  | S f => color_loop r (S i) f (String.append acc (letter_at (r i)))
  end.

Definition getRandomColor (r : nat -> nat) : string := color_loop r 0 6 "#".

(** [c] does not occur in [s]. *)
Fixpoint no_char (c : ascii) (s : string) : bool :=
  match s with
  | String.EmptyString => true
  | String.String a s' => negb (Ascii.eqb a c) && no_char c s'
  end.

(** The class part of [elementClassAndID] (lines 28-30). *)
Definition class_selector (el : Elem) : string :=
  let s0 := if String.eqb (className el) String.EmptyString then String.EmptyString
            else String.append "." (className el) in
  replaceAll ":" "\:" (replaceAll " " "." s0).

(** The participant a replay callback draws. *)
Definition callback_target (cb : Callback) : string :=
  match cb with ReplayUpdate cid _ => cid | ReplaySnapshot cid _ => cid end.

Definition is_toggle (ev : Event) : bool :=
  match ev with ToggleMsg => true | _ => false end.

(** A presence-set entry of a participant that has published a batch. *)
Definition has_batch (m : PresenceMsg) : Prop := is_Some (data_positions (data m)).

Definition batch_size (m : PresenceMsg) : nat :=
  match data_positions (data m) with Some ps => length ps | None => 0%nat end.

(** Two participants that published a batch, and a third already drawn. *)
Definition snapshot_set : list PresenceMsg :=
  [batch_msg "A" [sample0; sample50] 0; batch_msg "B" [far_sample] 0].

(** The draws 0, 1, 2, ... *)
Definition low_draws (i : nat) : nat := i.

(** A sender document whose every point hits an element with id [only]
    at (100,200); its selector is [" #only"]. *)
Definition only_elem : Elem :=
  {| className := String.EmptyString; el_id := "only";
     rect_left := 100; rect_top := 200; has_gbcr := true |}.

Definition only_doc : Document :=
  {| elementFromPoint := fun _ _ => Some only_elem;
     querySelectorAll := fun _ => Some [only_elem] |}.

(** * Properties *)

(** ** Helper lemmas *)

Lemma published_app (a b : list Call) :
  published (a ++ b) = published a ++ published b.
Proof.
  induction a as [|c a IH]; [reflexivity|].
  destruct c; simpl; rewrite ?IH; [by rewrite app_assoc | done | done | done].
Qed.

(** Handlers that leave the sample buffer and the calls on the channel
    alone. *)
Definition keeps_buffer (s s' : St) : Prop :=
  sent s' = sent s /\ positions s' = positions s.

Lemma keeps_buffer_refl s : keeps_buffer s s.
Proof. split; reflexivity. Qed.

Lemma keeps_buffer_trans s1 s2 s3 :
  keeps_buffer s1 s2 -> keeps_buffer s2 s3 -> keeps_buffer s1 s3.
Proof. intros [H1 H2] [H3 H4]. split; congruence. Qed.

Lemma ensure_cursor_keeps cid c s : keeps_buffer s (ensure_cursor cid c s).
Proof. unfold ensure_cursor. destruct (cursors s !! cid); split; reflexivity. Qed.

Lemma schedule_keeps k now ps s : keeps_buffer s (schedule k now ps s).
Proof. split; reflexivity. Qed.

Lemma on_update_keeps now m s : keeps_buffer s (on_update now m s).
Proof.
  unfold on_update. destruct (cursorCommunicationEnabled s); [|apply keeps_buffer_refl].
  destruct (data_positions (data m)).
  - eapply keeps_buffer_trans; [apply ensure_cursor_keeps | apply schedule_keeps].
  - apply ensure_cursor_keeps.
Qed.

Lemma on_leave_keeps cid s : keeps_buffer s (on_leave cid s).
Proof. unfold on_leave. destruct (cursors s !! cid); split; reflexivity. Qed.

Lemma presence_loop_keeps now ms s : keeps_buffer s (presence_loop now ms s).
Proof.
  revert s. induction ms as [|m ms IH]; intros s; simpl; [apply keeps_buffer_refl|].
  destruct (data_positions (data m)).
  - eapply keeps_buffer_trans; [|apply IH].
    eapply keeps_buffer_trans; [apply ensure_cursor_keeps | apply schedule_keeps].
  - apply ensure_cursor_keeps.
Qed.

Lemma run_callback_keeps doc cb s : keeps_buffer s (outcome_state (run_callback doc cb s)).
Proof.
  destruct cb as [cid p | cid p]; simpl.
  - unfold replay_update. destruct (cursors s !! cid); [|apply keeps_buffer_refl].
    destruct (String.eqb (element p) String.EmptyString); [split; reflexivity|].
    destruct (querySelectorAll doc (element p)) as [[|el [|el' els]]|];
      try (split; reflexivity).
    destruct (has_gbcr el); split; reflexivity.
  - unfold replay_snapshot. destruct (cursors s !! cid); split; reflexivity.
Qed.

Lemma fire_next_keeps doc s :
  keeps_buffer s (match fire_next doc s with None => s | Some (_, o) => outcome_state o end).
Proof.
  unfold fire_next. destruct (min_due (timers s)) as [d|]; [|apply keeps_buffer_refl].
  destruct (take_due d (timers s)) as [[t rest]|]; [|apply keeps_buffer_refl].
  eapply keeps_buffer_trans; [|apply run_callback_keeps]. split; reflexivity.
Qed.

(** Every task moves samples from the capture to the buffer or from the
    buffer to a published batch, without losing or repeating one. *)
Lemma step_buffer ev s :
  published (sent (step ev s)) ++ positions (step ev s)
  = published (sent s) ++ positions s ++ captured_by ev s.
Proof.
  assert (K : forall s', keeps_buffer s s' ->
            published (sent s') ++ positions s' = published (sent s) ++ positions s ++ [])
    by (intros s' [-> ->]; by rewrite app_nil_r).
  destruct ev as [doc now e| |now m|cid| |now r|doc]; simpl.
  - unfold on_mousemove, captured_by.
    destruct (cursorCommunicationEnabled s); simpl; [|by rewrite app_nil_r].
    destruct (capture_sample doc now e s) as [p|]; simpl; [|by rewrite app_nil_r].
    by rewrite app_assoc.
  - unfold on_interval.
    destruct (cursorCommunicationEnabled s && (0 <? length (positions s))%nat); simpl;
      [|by rewrite app_nil_r].
    rewrite published_app. simpl. by rewrite !app_nil_r.
  - apply K, on_update_keeps.
  - apply K, on_leave_keeps.
  - unfold on_toggle. simpl.
    destruct (negb (cursorCommunicationEnabled s)); simpl;
      rewrite ?published_app; simpl; by rewrite ?app_nil_r.
  - destruct r as [set|]; simpl; [apply K, presence_loop_keeps | by rewrite app_nil_r].
  - apply K, fire_next_keeps.
Qed.

Lemma run_buffer s evs :
  published (sent (run s evs)) ++ positions (run s evs)
  = published (sent s) ++ positions s ++ captured s evs.
Proof.
  revert s. induction evs as [|ev evs IH]; intros s; simpl.
  - by rewrite app_nil_r.
  - rewrite IH, app_assoc, step_buffer. by rewrite !app_assoc.
Qed.

Lemma published_batches cs : published cs = concat (batches cs).
Proof.
  induction cs as [|c cs IH]; [reflexivity|].
  destruct c; simpl; rewrite IH; reflexivity.
Qed.

(** ** Claim C3 *)

(** C3: from the loaded script, for every sequence of tasks, the samples
    of the published batches, in order, followed by the samples still
    buffered, are exactly the samples captured while sharing was enabled;
    so the published sample count plus the buffered count is the captured
    count, and each captured sample is published at most once, all of them
    once the buffer is flushed. *)
Theorem C3_batches_account_for_captured (c : string) (evs : list Event) :
  concat (batches (sent (run (init c) evs))) ++ positions (run (init c) evs)
    = captured (init c) evs
  /\ (sum_list (map length (batches (sent (run (init c) evs))))
      + length (positions (run (init c) evs)) = length (captured (init c) evs))%nat.
Proof.
  assert (E : concat (batches (sent (run (init c) evs))) ++ positions (run (init c) evs)
              = captured (init c) evs)
    by (rewrite <- published_batches, run_buffer; reflexivity).
  split; [exact E|].
  rewrite <- E, length_app. f_equal.
  generalize (batches (sent (run (init c) evs))). intros l.
  induction l as [|b l IH]; simpl; [reflexivity|]. rewrite length_app. lia.
Qed.

Lemma on_update_timers now m ps s :
  cursorCommunicationEnabled s = true ->
  data_positions (data m) = Some ps ->
  timers (on_update now m s)
  = timers s ++ map (fun p => {| due := now + time p; callback := ReplayUpdate (clientId m) p |}) ps.
Proof.
  intros He Hp. unfold on_update. rewrite He, Hp. unfold schedule, ensure_cursor.
  destruct (cursors s !! clientId m); reflexivity.
Qed.

(** ** Claim C1 *)

(** C1: a batch received while sharing is enabled gets one replay timer per
    sample, appended in sample order, due at the local receipt time plus
    the sample's [time] offset.  End to end: A's samples at (10,10) and
    (20,15) captured at 1000 and 1050 are published as one batch with
    offsets 0 and 50; B receives it at 2000, its timers run at 2000 and
    2050 and put A's cursor at (10,10), then at (20,15). *)
Theorem C1_replay_schedule :
  (forall (now : Z) (m : PresenceMsg) (ps : list Position) (s : St),
     cursorCommunicationEnabled s = true ->
     data_positions (data m) = Some ps ->
     timers (on_update now m s)
     = timers s ++ map (fun p => {| due := now + time p; callback := ReplayUpdate (clientId m) p |}) ps)
  /\ batches (sent sender_after) = [[sample0; sample50]]
  /\ exists s1 s2,
       fire_next plain_doc receiver_after = Some (2000, Ok s1)
       /\ cursor_at "A" s1 = Some (Some 10, Some 10)
       /\ fire_next plain_doc s1 = Some (2050, Ok s2)
       /\ cursor_at "A" s2 = Some (Some 20, Some 15)
       /\ timers s2 = [].
Proof.
  split; [intros now m ps s; apply on_update_timers|].
  split; [vm_compute; reflexivity|].
  eexists. eexists. split; [vm_compute; reflexivity|].
  split; [vm_compute; reflexivity|].
  split; [vm_compute; reflexivity|].
  split; vm_compute; reflexivity.
Qed.

(** ** Claims C2 and C10: the replay of a sample *)

(** When the stored selector is empty or [querySelectorAll] accepts it,
    and the matched element (if one) has [getBoundingClientRect], the
    replay sets the cursor's position. *)
Lemma replay_update_sets_position doc cid c p s :
  cursors s !! cid = Some c ->
  (element p = String.EmptyString \/ exists els, querySelectorAll doc (element p) = Some els
     /\ Forall (fun el => has_gbcr el = true) els) ->
  exists l t, replay_update doc cid p s = Ok (set_position cid c l t s).
Proof.
  intros Hc Hq. unfold replay_update. rewrite Hc.
  destruct (String.eqb_spec (element p) String.EmptyString) as [E|E]; [eauto|].
  destruct Hq as [Hq|(els & Hq & Hg)]; [contradiction|]. rewrite Hq.
  destruct els as [|el [|el' els]]; eauto.
  inversion Hg as [|? ? Hel]; subst. rewrite Hel. eauto.
Qed.

(** C2 (failing input): A's listener records the selector [".a."] over an
    element with [class="a "]; when B replays that sample,
    [querySelectorAll(".a.")] throws a [SyntaxError] and B's cursor for A,
    created by the update, keeps no position at all instead of taking the
    sample's page coordinates (30,40). *)
Theorem C2_invalid_selector_leaves_cursor_unset :
  elementClassAndID spaced_elem = element spaced_sample
  /\ cursor_at "A" receiver_spaced = Some (None, None)
  /\ exists s1,
       fire_next strict_doc receiver_spaced = Some (2000, Threw SyntaxError s1)
       /\ cursor_at "A" s1 = Some (None, None)
       /\ timers s1 = [].
Proof.
  split; [reflexivity|]. split; [vm_compute; reflexivity|].
  eexists. split; [vm_compute; reflexivity|]. split; vm_compute; reflexivity.
Qed.

(** C10: when the cursor exists and the sample's selector is non-empty and
    valid, the element is used only if the selector matches exactly one
    element; with zero or several matches the cursor goes to the sample's
    page coordinates [(x, y)]. *)
Theorem C10_anchor_needs_unique_match (doc : Document) (cid : string) (c : CursorDiv)
  (p : Position) (s : St) (els : list Elem)
  (Hc : cursors s !! cid = Some c)
  (Hne : element p <> String.EmptyString)
  (Hq : querySelectorAll doc (element p) = Some els) :
  (length els <> 1%nat -> replay_update doc cid p s = Ok (set_position cid c (x p) (y p) s))
  /\ (forall el, els = [el] -> has_gbcr el = true ->
      replay_update doc cid p s
      = Ok (set_position cid c (rect_left el + xElement p) (rect_top el + yElement p) s)).
Proof.
  unfold replay_update. rewrite Hc.
  destruct (String.eqb_spec (element p) String.EmptyString) as [E|_]; [contradiction|].
  rewrite Hq. split.
  - intros Hl. destruct els as [|el [|el' els]]; [reflexivity| |reflexivity].
    simpl in Hl. lia.
  - intros el -> Hg. by rewrite Hg.
Qed.

Lemma C10_anchor_needs_unique_match_witness :
  (cursors receiver_spaced !! "A" = Some (new_cursor "A" "#FF0000")
   /\ element item_sample <> String.EmptyString
   /\ querySelectorAll items_doc (element item_sample) = Some [item_a; item_b])
  /\ replay_update items_doc "A" item_sample receiver_spaced
     = Ok (set_position "A" (new_cursor "A" "#FF0000") 30 40 receiver_spaced).
Proof.
  split; [split; [vm_compute; reflexivity| split; [discriminate | reflexivity]]|].
  refine (proj1 (C10_anchor_needs_unique_match items_doc "A" (new_cursor "A" "#FF0000")
                   item_sample receiver_spaced [item_a; item_b] _ _ _) _).
  - vm_compute; reflexivity.
  - discriminate.
  - reflexivity.
  - simpl; lia.
Defined.

(** ** Claim C4 *)

(** C4 (counterexample): a sample buffered before a disable is not
    discarded: after a re-enable the next flush publishes it. *)
Lemma C4_partial_batch_survives_disable :
  captured (init "#FF0000") (firstn 2 toggle_events) = [sample0]
  /\ published (sent (run (init "#FF0000") (firstn 3 toggle_events))) = []
  /\ cursorCommunicationEnabled (run (init "#FF0000") (firstn 3 toggle_events)) = false
  /\ published (sent (run (init "#FF0000") toggle_events)) = [sample0].
Proof. repeat split; vm_compute; reflexivity. Qed.

(** C4 (amended): while sharing is disabled the listener records nothing
    and the flush publishes nothing; disabling (and re-enabling) leaves the
    buffered samples in place, so the first flush after a re-enable
    publishes them. *)
Theorem C4_disable_keeps_buffer :
  (forall doc now e s, cursorCommunicationEnabled s = false ->
     on_mousemove doc now e s = Ok s)
  /\ (forall s, cursorCommunicationEnabled s = false -> on_interval s = s)
  /\ (forall s, cursorCommunicationEnabled s = true ->
        cursorCommunicationEnabled (on_toggle s) = false
        /\ positions (on_toggle s) = positions s
        /\ positions (on_toggle (on_toggle s)) = positions s
        /\ cursorCommunicationEnabled (on_toggle (on_toggle s)) = true
        /\ (positions s <> [] ->
            published (sent (on_interval (on_toggle (on_toggle s))))
            = published (sent (on_toggle (on_toggle s))) ++ positions s)).
Proof.
  split; [intros doc now e s H; unfold on_mousemove; by rewrite H|].
  split; [intros s H; unfold on_interval; by rewrite H|].
  intros s H. unfold on_toggle. simpl. rewrite H. simpl.
  repeat split; try reflexivity.
  intros Hne. unfold on_interval. simpl.
  destruct (positions s) as [|p ps] eqn:Hp; [contradiction|]. simpl.
  rewrite published_app. simpl. by rewrite app_nil_r.
Qed.

(** ** Claim C5 *)

(** C5 (counterexample): there is no sample-count ceiling.  For every
    candidate ceiling, a mousemove that brings the buffer to it or beyond
    publishes nothing. *)
Lemma C5_no_size_ceiling :
  ~ (exists L : nat, (0 < L)%nat /\
       forall doc now e s s', cursorCommunicationEnabled s = true ->
         on_mousemove doc now e s = Ok s' -> (L <= length (positions s'))%nat ->
         sent s' <> sent s).
Proof.
  intros (L & _ & HL).
  set (s := set_positions (repeat sample0 L) (Some 1000) (on_toggle (init "#FF0000"))).
  set (s' := set_positions (repeat sample0 L ++ [sample50]) (Some 1000) s).
  apply (HL plain_doc 1050 (move_at 20 15) s s'); [reflexivity | reflexivity | |reflexivity].
  simpl. rewrite length_app, repeat_length. simpl. lia.
Qed.

(** C5 (amended): the mousemove listener never publishes, whatever the
    buffer size; only the 100 ms interval flushes, and it does so exactly
    when sharing is enabled and the buffer is non-empty, publishing the
    whole buffer and resetting it and the base time. *)
Theorem C5_interval_only_flush :
  (forall doc now e s, sent (outcome_state (on_mousemove doc now e s)) = sent s)
  /\ (forall s, cursorCommunicationEnabled s = true -> positions s <> [] ->
        on_interval s = set_positions [] None (emit (PresenceUpdate (positions s) (color s)) s))
  /\ (forall s, cursorCommunicationEnabled s = false \/ positions s = [] ->
        on_interval s = s).
Proof.
  split.
  { intros doc now e s. unfold on_mousemove.
    destruct (cursorCommunicationEnabled s); [|reflexivity].
    destruct (capture_sample doc now e s); reflexivity. }
  split.
  - intros s He Hne. unfold on_interval. rewrite He.
    destruct (positions s) as [|p ps]; [contradiction|reflexivity].
  - intros s [He|Hp]; unfold on_interval; [by rewrite He|].
    rewrite Hp. by destruct (cursorCommunicationEnabled s).
Qed.

(** ** Claim C6 *)

(** C6 (counterexample): a batch from A with an older timestamp (100) that
    arrives after a newer one (200) is not dropped: its replay is scheduled
    and, once the timers have run, A's cursor is back at the older
    position (10,10). *)
Lemma C6_older_batch_applied :
  timers receiver_reordered
  = [{| due := 2000; callback := ReplayUpdate "A" far_sample |};
     {| due := 2010; callback := ReplayUpdate "A" sample0 |}]
  /\ exists s1 s2,
       fire_next plain_doc receiver_reordered = Some (2000, Ok s1)
       /\ cursor_at "A" s1 = Some (Some 50, Some 50)
       /\ fire_next plain_doc s1 = Some (2010, Ok s2)
       /\ cursor_at "A" s2 = Some (Some 10, Some 10).
Proof.
  split; [vm_compute; reflexivity|].
  eexists. eexists. repeat split; vm_compute; reflexivity.
Qed.

Definition with_timestamp (m : PresenceMsg) (t : Z) : PresenceMsg :=
  {| clientId := clientId m; data := data m; timestamp := t |}.

(** C6 (amended): the update subscriber ignores the message timestamp and
    keeps no per-participant ordering: every batch received while sharing
    is enabled has all its samples scheduled, whatever its timestamp. *)
Theorem C6_every_batch_applied (now t : Z) (m : PresenceMsg) (ps : list Position) (s : St)
  (He : cursorCommunicationEnabled s = true)
  (Hp : data_positions (data m) = Some ps) :
  on_update now (with_timestamp m t) s = on_update now m s
  /\ timers (on_update now (with_timestamp m t) s)
     = timers s ++ map (fun p => {| due := now + time p; callback := ReplayUpdate (clientId m) p |}) ps.
Proof.
  split; [reflexivity|].
  apply (on_update_timers now (with_timestamp m t) ps s He Hp).
Qed.

Lemma C6_every_batch_applied_witness :
  (cursorCommunicationEnabled (on_toggle (init "#00FF00")) = true
   /\ data_positions (data (batch_msg "A" [sample0] 200)) = Some [sample0])
  /\ timers (on_update 2010 (with_timestamp (batch_msg "A" [sample0] 200) 100)
               (on_toggle (init "#00FF00")))
     = [{| due := 2010; callback := ReplayUpdate "A" sample0 |}].
Proof.
  split; [split; reflexivity|].
  refine (eq_trans (proj2 (C6_every_batch_applied 2010 100 (batch_msg "A" [sample0] 200)
                             [sample0] (on_toggle (init "#00FF00")) _ _)) _);
    reflexivity.
Defined.

(** ** Claim C7 *)

(** C7 (counterexample): the control message toggles.  Sent twice to an
    enabled session it re-enables it (a single one disables it), and the
    disable leaves a pending replay timer in place. *)
Lemma C7_disable_twice_reenables :
  cursorCommunicationEnabled (on_toggle receiver_after) = false
  /\ cursorCommunicationEnabled (on_toggle (on_toggle receiver_after)) = true
  /\ on_toggle (on_toggle receiver_after) <> on_toggle receiver_after
  /\ length (timers (on_toggle receiver_after)) = 2%nat.
Proof.
  repeat split; try (vm_compute; reflexivity).
  intros H. apply (f_equal cursorCommunicationEnabled) in H. vm_compute in H. discriminate.
Qed.

(** C7 (amended): the only control is a toggle.  Toggling an enabled
    session disables it, removes every cursor and leaves presence, but
    keeps the pending replay timers; toggling it again re-enables it,
    fetching the presence set and entering.  Clearing the cursors is
    idempotent. *)
Theorem C7_toggle_disable (s : St) (He : cursorCommunicationEnabled s = true) :
  cursorCommunicationEnabled (on_toggle s) = false
  /\ cursors (on_toggle s) = ∅
  /\ timers (on_toggle s) = timers s
  /\ sent (on_toggle s) = sent s ++ [PresenceLeave]
  /\ cursorCommunicationEnabled (on_toggle (on_toggle s)) = true
  /\ sent (on_toggle (on_toggle s)) = sent s ++ [PresenceLeave; PresenceGet; PresenceEnter (color s)]
  /\ clearCursors (clearCursors (on_toggle s)) = clearCursors (on_toggle s).
Proof.
  unfold on_toggle. simpl. rewrite He. simpl.
  repeat split; try reflexivity.
  by rewrite <- !app_assoc.
Qed.

Lemma C7_toggle_disable_witness :
  cursorCommunicationEnabled receiver_after = true
  /\ cursors (on_toggle receiver_after) = ∅.
Proof.
  split; [reflexivity|].
  exact (proj1 (proj2 (C7_toggle_disable receiver_after ltac:(reflexivity)))).
Defined.

(** ** Claim C8 *)

(** C8 (failing input): while sharing is enabled, a mousemove whose point
    is left of the viewport hits no element; [element.className] then
    throws a [TypeError] and no sample is recorded, where a [None] anchor
    with the page coordinates (-5,10) was expected. *)
Theorem C8_no_element_throws :
  elementFromPoint bounded_doc (clientX outside_move) (clientY outside_move) = None
  /\ on_mousemove bounded_doc 1000 outside_move (on_toggle (init "#FF0000"))
     = Threw TypeError (on_toggle (init "#FF0000"))
  /\ positions (step (MouseMove bounded_doc 1000 outside_move) (on_toggle (init "#FF0000"))) = [].
Proof. repeat split. Qed.

(** ** Claim C9 *)

(** C9 (failing input): an enabled session fetches a presence set listing
    A then B, both entered with [{color}] and without a batch.  The callback
    creates A's cursor, with no position, and then returns at
    [if (!data.positions) return;]: B gets no cursor.  A's leave then
    removes A's cursor cleanly. *)
Theorem C9_snapshot_stops_at_first_silent_member :
  cursors (on_presence_get 0 (Some [enter_msg "A"; enter_msg "B"]) (on_toggle (init "#FF0000")))
    !! "A" = Some (new_cursor "A" "#0000FF")
  /\ cursors (on_presence_get 0 (Some [enter_msg "A"; enter_msg "B"]) (on_toggle (init "#FF0000")))
    !! "B" = None
  /\ cursors (on_leave "A"
       (on_presence_get 0 (Some [enter_msg "A"; enter_msg "B"]) (on_toggle (init "#FF0000"))))
     = ∅.
Proof. repeat split; vm_compute; reflexivity. Qed.

(** * Further properties of the content script *)

(** ** getRandomColor *)

Lemma letter_at_hex (d : nat) :
  (d < 16)%nat -> exists a, letter_at d = String.String a String.EmptyString
                            /\ no_char a letters = false.
Proof.
  intros Hd.
  do 16 (destruct d as [|d]; [eexists; split; reflexivity|]). lia.
Qed.

(** [getRandomColor] returns ['#'] followed by six characters of
    ['0123456789ABCDEF'] when each of its six draws is below 16. *)
Theorem getRandomColor_hex (r : nat -> nat) (Hr : forall i, (i < 6)%nat -> (r i < 16)%nat) :
  String.length (getRandomColor r) = 7%nat
  /\ String.get 0 (getRandomColor r) = Some "#"%char
  /\ forall k, (1 <= k < 7)%nat ->
       exists a, String.get k (getRandomColor r) = Some a /\ no_char a letters = false.
Proof.
  destruct (letter_at_hex (r 0%nat) ltac:(apply Hr; lia)) as (a0 & E0 & H0).
  destruct (letter_at_hex (r 1%nat) ltac:(apply Hr; lia)) as (a1 & E1 & H1).
  destruct (letter_at_hex (r 2%nat) ltac:(apply Hr; lia)) as (a2 & E2 & H2).
  destruct (letter_at_hex (r 3%nat) ltac:(apply Hr; lia)) as (a3 & E3 & H3).
  destruct (letter_at_hex (r 4%nat) ltac:(apply Hr; lia)) as (a4 & E4 & H4).
  destruct (letter_at_hex (r 5%nat) ltac:(apply Hr; lia)) as (a5 & E5 & H5).
  unfold getRandomColor. simpl. rewrite E0, E1, E2, E3, E4, E5. simpl.
  split; [reflexivity|]. split; [reflexivity|].
  intros k Hk.
  do 7 (destruct k as [|k]; [first [lia | eexists; split; [reflexivity|assumption]]|]). lia.
Qed.

Lemma getRandomColor_hex_witness :
  (forall i, (i < 6)%nat -> (low_draws i < 16)%nat)
  /\ String.length (getRandomColor low_draws) = 7%nat.
Proof.
  assert (H : forall i, (i < 6)%nat -> (low_draws i < 16)%nat)
    by (intros i Hi; unfold low_draws; lia).
  split; [exact H|].
  exact (proj1 (getRandomColor_hex low_draws H)).
Defined.

(** ** The selector of the hovered element *)

Lemma no_char_append c a b :
  no_char c (String.append a b) = no_char c a && no_char c b.
Proof.
  induction a as [|h a IH]; simpl; [reflexivity|]. rewrite IH. apply andb_assoc.
Qed.

Lemma replaceAll_removes c r s : no_char c r = true -> no_char c (replaceAll c r s) = true.
Proof.
  intros Hr. induction s as [|a s IH]; simpl; [reflexivity|].
  destruct (Ascii.eqb a c) eqn:E.
  - rewrite no_char_append, Hr, IH. reflexivity.
  - simpl. rewrite E, IH. reflexivity.
Qed.

Lemma replaceAll_keeps_absent c c' r s :
  no_char c r = true -> no_char c s = true -> no_char c (replaceAll c' r s) = true.
Proof.
  intros Hr. induction s as [|a s IH]; simpl; [reflexivity|].
  intros Hs. apply andb_true_iff in Hs as [Ha Hs].
  destruct (Ascii.eqb a c').
  - rewrite no_char_append, Hr, IH by exact Hs. reflexivity.
  - simpl. rewrite Ha, IH by exact Hs. reflexivity.
Qed.

(** The selector recorded for a hovered element is its class part
    followed, when the element has an id, by [" #" ++ id]; the class part
    contains no space (every space of [className] became a dot), so the
    class list is one compound selector. *)
Theorem elementClassAndID_shape (el : Elem) :
  elementClassAndID el
  = (if String.eqb (el_id el) String.EmptyString then class_selector el
     else String.append (class_selector el) (String.append " #" (el_id el)))
  /\ no_char " " (class_selector el) = true.
Proof.
  split; [reflexivity|]. unfold class_selector.
  apply replaceAll_keeps_absent; [reflexivity|].
  apply replaceAll_removes. reflexivity.
Qed.

(** ** Sample times within a flush window *)

(** A sample captured while sharing is enabled is appended to the buffer.
    The first sample of a window (no base time) has offset 0 and sets the
    base time to the capture time; a later sample of the window, with base
    time [b <> 0], has offset [now - b] and keeps the base time. *)
Theorem mousemove_window_offsets (doc : Document) (now : Z) (e : MouseEvent)
  (s : St) (p : Position)
  (He : cursorCommunicationEnabled s = true)
  (Hp : capture_sample doc now e s = Some p) :
  positions (outcome_state (on_mousemove doc now e s)) = positions s ++ [p]
  /\ (baseTime s = None ->
      time p = 0 /\ baseTime (outcome_state (on_mousemove doc now e s)) = Some now)
  /\ (forall b, baseTime s = Some b -> b <> 0 ->
      time p = now - b /\ baseTime (outcome_state (on_mousemove doc now e s)) = Some b).
Proof.
  unfold on_mousemove. rewrite He, Hp. simpl.
  unfold capture_sample in Hp.
  destruct (elementFromPoint doc (clientX e) (clientY e)) as [el|]; [|discriminate].
  destruct (has_gbcr el); [|discriminate]. injection Hp as <-. simpl.
  split; [reflexivity|]. split.
  - intros ->. simpl. split; [lia|reflexivity].
  - intros b -> Hb. simpl. apply Z.eqb_neq in Hb. rewrite Hb. split; reflexivity.
Qed.

Lemma mousemove_window_offsets_witness :
  (cursorCommunicationEnabled (on_toggle (init "#FF0000")) = true
   /\ capture_sample plain_doc 1000 (move_at 10 10) (on_toggle (init "#FF0000")) = Some sample0)
  /\ positions (outcome_state (on_mousemove plain_doc 1000 (move_at 10 10) (on_toggle (init "#FF0000"))))
     = [sample0].
Proof.
  split; [split; reflexivity|].
  exact (proj1 (mousemove_window_offsets plain_doc 1000 (move_at 10 10)
                  (on_toggle (init "#FF0000")) sample0 ltac:(reflexivity) ltac:(reflexivity))).
Defined.

(** After a flush, the next captured sample starts a new window: its
    offset is 0. *)
Theorem flush_restarts_window (doc : Document) (now : Z) (e : MouseEvent) (s : St) (p : Position)
  (He : cursorCommunicationEnabled s = true)
  (Hne : positions s <> [])
  (Hp : capture_sample doc now e (on_interval s) = Some p) :
  time p = 0.
Proof.
  unfold on_interval in Hp. rewrite He in Hp.
  destruct (positions s) as [|q qs]; [contradiction|]. simpl in Hp.
  unfold capture_sample in Hp. simpl in Hp.
  destruct (elementFromPoint doc (clientX e) (clientY e)) as [el|]; [|discriminate].
  destruct (has_gbcr el); [|discriminate]. injection Hp as <-. simpl. lia.
Qed.

Lemma flush_restarts_window_witness :
  (cursorCommunicationEnabled (run (init "#FF0000") (firstn 3 sender_events)) = true
   /\ positions (run (init "#FF0000") (firstn 3 sender_events)) <> []
   /\ capture_sample plain_doc 1200 (move_at 30 30)
        (on_interval (run (init "#FF0000") (firstn 3 sender_events)))
      = Some {| x := 30; y := 30; xElement := 30; yElement := 30; time := 0;
                element := String.EmptyString |})
  /\ time {| x := 30; y := 30; xElement := 30; yElement := 30; time := 0;
             element := String.EmptyString |} = 0.
Proof.
  split; [split; [vm_compute; reflexivity | split; [vm_compute; discriminate | vm_compute; reflexivity]]|].
  exact (flush_restarts_window plain_doc 1200 (move_at 30 30)
           (run (init "#FF0000") (firstn 3 sender_events))
           {| x := 30; y := 30; xElement := 30; yElement := 30; time := 0;
              element := String.EmptyString |}
           ltac:(vm_compute; reflexivity) ltac:(vm_compute; discriminate)
           ltac:(vm_compute; reflexivity)).
Defined.

(** ** Leave and disable against pending replays *)

(** Once a participant has left, every pending replay callback for it
    (from an update or from a presence snapshot) runs as a no-op. *)
Theorem leave_makes_replays_noops (doc : Document) (cid : string) (p : Position) (s : St) :
  run_callback doc (ReplayUpdate cid p) (on_leave cid s) = Ok (on_leave cid s)
  /\ run_callback doc (ReplaySnapshot cid p) (on_leave cid s) = Ok (on_leave cid s).
Proof.
  assert (H : cursors (on_leave cid s) !! cid = None).
  { unfold on_leave. destruct (cursors s !! cid) eqn:E; simpl; [|exact E].
    apply lookup_delete_eq. }
  simpl. unfold replay_update, replay_snapshot. rewrite H. split; reflexivity.
Qed.




(** ** Cursors drawn by an update *)

(** An update message never moves or recolours an existing cursor (only
    its replay timers do), and for an unknown sender, while sharing is
    enabled, it creates a cursor in the message's colour with no position
    yet. *)
Theorem on_update_cursor (now : Z) (m : PresenceMsg) (s : St) :
  (forall c, cursors s !! clientId m = Some c ->
     cursors (on_update now m s) !! clientId m = Some c)
  /\ (cursorCommunicationEnabled s = true -> cursors s !! clientId m = None ->
      cursors (on_update now m s) !! clientId m
      = Some (new_cursor (clientId m) (data_color (data m)))).
Proof.
  unfold on_update. split.
  - intros c Hc. destruct (cursorCommunicationEnabled s); [|exact Hc].
    unfold ensure_cursor. rewrite Hc.
    destruct (data_positions (data m)); exact Hc.
  - intros He Hn. rewrite He. unfold ensure_cursor. rewrite Hn.
    destruct (data_positions (data m)); simpl; apply lookup_insert_eq.
Qed.

(** ** The presence snapshot loop *)

Lemma ensure_cursor_keeps_cursor cid c0 s cid' c :
  cursors s !! cid' = Some c -> cursors (ensure_cursor cid c0 s) !! cid' = Some c.
Proof.
  intros H. unfold ensure_cursor. destruct (cursors s !! cid) eqn:E; [exact H|].
  simpl. rewrite lookup_insert_ne; [exact H|]. intros ->. congruence.
Qed.

Lemma ensure_cursor_present cid c0 s : is_Some (cursors (ensure_cursor cid c0 s) !! cid).
Proof.
  unfold ensure_cursor. destruct (cursors s !! cid) eqn:E; [by rewrite E|].
  simpl. rewrite lookup_insert_eq. eauto.
Qed.

Lemma presence_loop_keeps_cursor now ms s cid c :
  cursors s !! cid = Some c -> cursors (presence_loop now ms s) !! cid = Some c.
Proof.
  revert s. induction ms as [|m ms IH]; intros s H; simpl; [exact H|].
  destruct (data_positions (data m)).
  - apply IH. apply (ensure_cursor_keeps_cursor _ _ _ _ _ H).
  - apply (ensure_cursor_keeps_cursor _ _ _ _ _ H).
Qed.

(** The snapshot loop never removes, moves or recolours a cursor that is
    already drawn. *)
Theorem presence_snapshot_keeps_cursors (now : Z) (ms : list PresenceMsg) (s : St)
  (cid : string) (c : CursorDiv) (Hc : cursors s !! cid = Some c) :
  cursors (on_presence_get now (Some ms) s) !! cid = Some c.
Proof. apply presence_loop_keeps_cursor, Hc. Qed.

Lemma presence_snapshot_keeps_cursors_witness :
  cursors receiver_after !! "A" = Some (new_cursor "A" "#FF0000")
  /\ cursors (on_presence_get 3000 (Some [batch_msg "A" [far_sample] 0]) receiver_after) !! "A"
     = Some (new_cursor "A" "#FF0000").
Proof.
  split; [vm_compute; reflexivity|].
  apply (presence_snapshot_keeps_cursors 3000 [batch_msg "A" [far_sample] 0] receiver_after "A");
    vm_compute; reflexivity.
Defined.

(** When every listed participant has published a batch, the snapshot
    loop processes all of them: each one has a cursor afterwards, and one
    replay timer is scheduled per sample of each listed batch. *)
Theorem presence_snapshot_covers_all (now : Z) (ms : list PresenceMsg) (s : St)
  (Hall : Forall has_batch ms) :
  (forall m, In m ms -> is_Some (cursors (on_presence_get now (Some ms) s) !! clientId m))
  /\ length (timers (on_presence_get now (Some ms) s))
     = (length (timers s) + sum_list (map batch_size ms))%nat.
Proof.
  simpl. revert s. induction Hall as [|m ms Hm Hall IH]; intros s.
  - split; [intros m []|]. simpl. lia.
  - simpl. destruct Hm as [ps Hps]. rewrite Hps. split.
    + intros m' [<-|Hin].
      * destruct (ensure_cursor_present (clientId m) (data_color (data m)) s) as [c Hc].
        rewrite (presence_loop_keeps_cursor now ms _ (clientId m) c); [eauto|exact Hc].
      * apply (proj1 (IH _)), Hin.
    + rewrite (proj2 (IH _)).
      assert (Hb : batch_size m = length ps) by (unfold batch_size; rewrite Hps; reflexivity).
      cbn [map sum_list]. rewrite Hb.
      unfold schedule. simpl. rewrite length_app, length_map.
      unfold ensure_cursor. destruct (cursors s !! clientId m); simpl; lia.
Qed.

Lemma presence_snapshot_covers_all_witness :
  Forall has_batch snapshot_set
  /\ length (timers (on_presence_get 3000 (Some snapshot_set) (on_toggle (init "#00FF00")))) = 3%nat.
Proof.
  assert (H : Forall has_batch snapshot_set)
    by (repeat constructor; unfold has_batch; simpl; eauto).
  split; [exact H|].
  rewrite (proj2 (presence_snapshot_covers_all 3000 snapshot_set (on_toggle (init "#00FF00")) H)).
  reflexivity.
Defined.

(** ** Capture and replay *)

(** Round trip: a sample captured over element [el] and replayed on a
    document where its selector is empty, matches zero or several
    elements, or matches exactly one element with the same bounding-box
    origin as [el], puts the remote cursor at the sender's page coordinates
    [(pageX, pageY)]. *)
Theorem capture_replay_roundtrip (doc doc' : Document) (now : Z) (e : MouseEvent)
  (s s2 : St) (el : Elem) (p : Position) (cid : string) (c : CursorDiv)
  (Hel : elementFromPoint doc (clientX e) (clientY e) = Some el)
  (Hp : capture_sample doc now e s = Some p)
  (Hc : cursors s2 !! cid = Some c)
  (Hq : element p = String.EmptyString
        \/ (exists els, querySelectorAll doc' (element p) = Some els /\ length els <> 1%nat)
        \/ (exists el', querySelectorAll doc' (element p) = Some [el'] /\ has_gbcr el' = true
                        /\ rect_left el' = rect_left el /\ rect_top el' = rect_top el)) :
  replay_update doc' cid p s2 = Ok (set_position cid c (pageX e) (pageY e) s2).
Proof.
  unfold capture_sample in Hp. rewrite Hel in Hp.
  destruct (has_gbcr el); [|discriminate]. injection Hp as <-.
  unfold replay_update. rewrite Hc. simpl in *.
  destruct (String.eqb_spec (elementClassAndID el) String.EmptyString) as [E|E];
    [reflexivity|].
  destruct Hq as [Hq|[(els & Hq & Hl)|(el' & Hq & Hg & Hx & Hy)]]; [contradiction| |].
  - rewrite Hq. destruct els as [|a [|b els]]; [reflexivity| simpl in Hl; lia | reflexivity].
  - rewrite Hq, Hg, Hx, Hy. do 2 f_equal; lia.
Qed.

Lemma capture_replay_roundtrip_witness :
  (elementFromPoint only_doc 150 250 = Some only_elem
   /\ capture_sample only_doc 1000 (move_at 150 250) (on_toggle (init "#FF0000"))
      = Some {| x := 150; y := 250; xElement := 50; yElement := 50; time := 0;
                element := " #only" |}
   /\ cursors receiver_after !! "A" = Some (new_cursor "A" "#FF0000")
   /\ querySelectorAll items_doc " #only" = Some [item_a])
  /\ replay_update items_doc "A"
       {| x := 150; y := 250; xElement := 50; yElement := 50; time := 0; element := " #only" |}
       receiver_after
     = Ok (set_position "A" (new_cursor "A" "#FF0000") 150 250 receiver_after).
Proof.
  split; [repeat split; vm_compute; reflexivity|].
  apply (capture_replay_roundtrip only_doc items_doc 1000 (move_at 150 250)
           (on_toggle (init "#FF0000")) receiver_after only_elem).
  - reflexivity.
  - vm_compute; reflexivity.
  - vm_compute; reflexivity.
  - right; right. exists item_a. repeat split; vm_compute; reflexivity.
Defined.

(** ** Published batches are never empty *)

Lemma batches_app (a b : list Call) : batches (a ++ b) = batches a ++ batches b.
Proof. unfold batches. apply omap_app. Qed.

Lemma mousemove_sent doc now e s : sent (outcome_state (on_mousemove doc now e s)) = sent s.
Proof.
  unfold on_mousemove. destruct (cursorCommunicationEnabled s); [|reflexivity].
  destruct (capture_sample doc now e s); reflexivity.
Qed.

Lemma step_nonempty_batches ev s :
  Forall (fun ps => ps <> []) (batches (sent s)) ->
  Forall (fun ps => ps <> []) (batches (sent (step ev s))).
Proof.
  intros H.
  assert (K : forall s', keeps_buffer s s' -> Forall (fun ps => ps <> []) (batches (sent s')))
    by (intros s' [-> _]; exact H).
  destruct ev as [doc now e| |now m|cid| |now r|doc]; simpl.
  - by rewrite mousemove_sent.
  - unfold on_interval.
    destruct (cursorCommunicationEnabled s && (0 <? length (positions s))%nat) eqn:E;
      [|exact H].
    apply andb_true_iff in E as [_ E]. apply Nat.ltb_lt in E. simpl.
    rewrite batches_app. apply Forall_app. split; [exact H|].
    constructor; [|constructor]. intros Hp. rewrite Hp in E. simpl in E. lia.
  - apply K, on_update_keeps.
  - apply K, on_leave_keeps.
  - unfold on_toggle. simpl.
    destruct (negb (cursorCommunicationEnabled s)); simpl; rewrite ?batches_app; simpl;
      rewrite ?app_nil_r; exact H.
  - destruct r as [set|]; [apply K, presence_loop_keeps | exact H].
  - apply K, fire_next_keeps.
Qed.

(** From the loaded script, whatever the tasks, every batch published with
    [presence.update] holds at least one sample. *)
Theorem no_empty_batch (c : string) (evs : list Event) :
  Forall (fun ps => ps <> []) (batches (sent (run (init c) evs))).
Proof.
  assert (G : forall s, Forall (fun ps => ps <> []) (batches (sent s)) ->
                Forall (fun ps => ps <> []) (batches (sent (run s evs)))).
  { induction evs as [|ev evs IH]; intros s H; simpl; [exact H|].
    apply IH, step_nonempty_batches, H. }
  apply G. constructor.
Qed.

(** ** The sharing flag *)

Lemma ensure_cursor_set_enabled b cid c s :
  ensure_cursor cid c (set_enabled b s) = set_enabled b (ensure_cursor cid c s).
Proof. unfold ensure_cursor. simpl. by destruct (cursors s !! cid). Qed.

Lemma presence_loop_set_enabled b now ms s :
  presence_loop now ms (set_enabled b s) = set_enabled b (presence_loop now ms s).
Proof.
  revert s. induction ms as [|m ms IH]; intros s; simpl; [reflexivity|].
  rewrite ensure_cursor_set_enabled.
  destruct (data_positions (data m)); [|reflexivity].
  rewrite <- IH. f_equal.
Qed.

(** The [presence.get] callback of [fetchPresenceSet] does not look at the
    sharing flag: on a disabled session (a reply that arrives after a
    disable) it draws the same cursors and schedules the same replays as on
    an enabled one. *)
Theorem presence_get_ignores_flag (b : bool) (now : Z) (r : option (list PresenceMsg)) (s : St) :
  on_presence_get now r (set_enabled b s) = set_enabled b (on_presence_get now r s).
Proof. destruct r as [ms|]; simpl; [apply presence_loop_set_enabled | reflexivity]. Qed.

Definition same_flag (s s' : St) : Prop :=
  cursorCommunicationEnabled s' = cursorCommunicationEnabled s.

Lemma presence_loop_flag now ms s : same_flag s (presence_loop now ms s).
Proof.
  revert s. induction ms as [|m ms IH]; intros s; simpl; [reflexivity|].
  unfold same_flag in *.
  destruct (data_positions (data m)); [rewrite IH|]; unfold ensure_cursor;
    destruct (cursors s !! clientId m); reflexivity.
Qed.

Lemma step_flag ev s :
  is_toggle ev = false -> same_flag s (step ev s).
Proof.
  intros Ht. unfold same_flag.
  destruct ev as [doc now e| |now m|cid| |now r|doc]; simpl; try discriminate.
  - unfold on_mousemove. destruct (cursorCommunicationEnabled s) eqn:E; [|simpl; congruence].
    destruct (capture_sample doc now e s); simpl; congruence.
  - unfold on_interval.
    destruct (cursorCommunicationEnabled s && (0 <? length (positions s))%nat); reflexivity.
  - unfold on_update. destruct (cursorCommunicationEnabled s) eqn:E; [|congruence].
    unfold ensure_cursor. destruct (cursors s !! clientId m);
      destruct (data_positions (data m)); simpl; congruence.
  - unfold on_leave. destruct (cursors s !! cid); reflexivity.
  - destruct r as [ms|]; [apply presence_loop_flag | reflexivity].
  - unfold fire_next. destruct (min_due (timers s)) as [d|]; [|reflexivity].
    destruct (take_due d (timers s)) as [[t rest]|]; [|reflexivity].
    destruct (callback t) as [cid p|cid p]; simpl;
      [unfold replay_update | unfold replay_snapshot]; simpl;
      destruct (cursors s !! cid); try reflexivity.
    destruct (String.eqb (element p) String.EmptyString); [reflexivity|].
    destruct (querySelectorAll doc (element p)) as [[|el [|el' els]]|]; try reflexivity.
    destruct (has_gbcr el); reflexivity.
Qed.

Lemma step_disabled_buffer ev s :
  is_toggle ev = false -> cursorCommunicationEnabled s = false ->
  keeps_buffer s (step ev s).
Proof.
  intros Ht Hs.
  destruct ev as [doc now e| |now m|cid| |now r|doc]; simpl; try discriminate.
  - unfold on_mousemove. rewrite Hs. apply keeps_buffer_refl.
  - unfold on_interval. rewrite Hs. apply keeps_buffer_refl.
  - apply on_update_keeps.
  - apply on_leave_keeps.
  - destruct r as [ms|]; [apply presence_loop_keeps | apply keeps_buffer_refl].
  - apply fire_next_keeps.
Qed.

(** Sharing starts disabled: until the first toggle message, whatever
    else happens, nothing is captured, buffered or sent on the channel. *)
Theorem disabled_until_toggle (c : string) (evs : list Event)
  (Hno : Forall (fun ev => is_toggle ev = false) evs) :
  cursorCommunicationEnabled (run (init c) evs) = false
  /\ captured (init c) evs = []
  /\ positions (run (init c) evs) = []
  /\ sent (run (init c) evs) = [].
Proof.
  assert (G : forall s, cursorCommunicationEnabled s = false ->
            cursorCommunicationEnabled (run s evs) = false /\ captured s evs = []
            /\ keeps_buffer s (run s evs)).
  { induction Hno as [|ev evs Hev Hno IH]; intros s Hs; simpl.
    { split; [exact Hs|]. split; [reflexivity | apply keeps_buffer_refl]. }
    assert (Hs' : cursorCommunicationEnabled (step ev s) = false)
      by (rewrite (step_flag ev s Hev); exact Hs).
    destruct (IH _ Hs') as (H1 & H2 & H3). split; [exact H1|]. split.
    - rewrite H2, app_nil_r. destruct ev; simpl; try reflexivity. by rewrite Hs.
    - apply (keeps_buffer_trans _ (step ev s)); [apply step_disabled_buffer; assumption | exact H3]. }
  destruct (G (init c) eq_refl) as (H1 & H2 & H3 & H4).
  split; [exact H1|]. split; [exact H2|]. split; [exact H4 | exact H3].
Qed.

Lemma disabled_until_toggle_witness :
  Forall (fun ev => is_toggle ev = false) (skipn 1 sender_events)
  /\ sent (run (init "#FF0000") (skipn 1 sender_events)) = [].
Proof.
  assert (H : Forall (fun ev => is_toggle ev = false) (skipn 1 sender_events))
    by (repeat constructor).
  split; [exact H|].
  exact (proj2 (proj2 (proj2 (disabled_until_toggle "#FF0000" (skipn 1 sender_events) H)))).
Defined.
